(** * cortex: pkg/workloads/cortex/lib/model/validation.py

    A shallow embedding of the model-layout pattern module: the placeholder
    classes, the pattern registry [model_template] with its two accessors,
    and the two tree builders, together with the part of the Python runtime
    they rest on (string stripping, the rich-comparison protocol, hashing of
    tuples, dict and set displays). *)

From Stdlib Require Import ZArith List String Ascii Bool Lia Znumtheory.
From Stdlib Require Import DecimalString.
Import ListNotations.

Set Warnings "-register-all".

Local Open Scope string_scope.
Local Open Scope list_scope.
Local Open Scope Z_scope.

(* ================================================================== *)
(** * The Python runtime the module relies on *)
(* ================================================================== *)

Module Py.

(** Exceptions that the modelled code can raise. *)
Inductive PyExc : Type :=
| TypeError
| KeyError
| IndexError.

(** Result of a call: a value, or a raised exception. *)
Inductive Exc (A : Type) : Type :=
| Ok (a : A)
| Raise (e : PyExc).

Arguments Ok {A} a.
Arguments Raise {A} e.

Definition bind {A B : Type} (m : Exc A) (f : A -> Exc B) : Exc B :=
  match m with
  | Ok a => f a
  | Raise e => Raise e
  end.

Notation "x <- m ;; k" := (bind m (fun x => k))
  (at level 61, m at next level, right associativity).

(** A call is rejected when it raises, whatever the exception. *)
Definition raised {A : Type} (r : Exc A) : Prop := exists e, r = Raise e.

(** Scalar values: what a placeholder is built from. *)
Inductive PyVal : Type :=
| VStr (s : string)
| VInt (z : Z)
| VNone.

(** [str(v)]. *)
Definition py_str (v : PyVal) : string :=
  match v with
  | VStr s => s
  | VInt z => NilZero.string_of_int (Z.to_int z)
  | VNone => "None"
  end.

(** ** [str.strip(chars)] *)

Fixpoint char_in (c : ascii) (chars : string) : bool :=
  match chars with
  | EmptyString => false
  | String c' chars' => Ascii.eqb c c' || char_in c chars'
  end.

Fixpoint lstrip (chars s : string) : string :=
  match s with
  | EmptyString => EmptyString
  | String c s' => if char_in c chars then lstrip chars s' else s
  end.

Fixpoint rstrip (chars s : string) : string :=
  match s with
  | EmptyString => EmptyString
  | String c s' =>
      match rstrip chars s' with
      | EmptyString => if char_in c chars then EmptyString else String c EmptyString
      | r => String c r
      end
  end.

Definition strip (chars s : string) : string := rstrip chars (lstrip chars s).

(** The first, respectively last, character of [s] is one of [chars]. *)
Definition starts_with_any (chars s : string) : bool :=
  match s with
  | EmptyString => false
  | String c _ => char_in c chars
  end.

Fixpoint ends_with_any (chars s : string) : bool :=
  match s with
  | EmptyString => false
  | String c EmptyString => char_in c chars
  | String _ s' => ends_with_any chars s'
  end.

(** ** [os.path.dirname] (posixpath) *)

(** [p[:p.rfind("/") + 1]]: the prefix up to and including the last slash. *)
Fixpoint upto_last_sep (p : string) : string :=
  match p with
  | EmptyString => EmptyString
  | String c p' =>
      match upto_last_sep p' with
      | EmptyString => if Ascii.eqb c "/" then String c EmptyString else EmptyString
      | h => String c h
      end
  end.

Definition os_path_dirname (p : string) : string :=
  let head := upto_last_sep p in
  match head, lstrip "/" head with
  | EmptyString, _ => head            (* empty head *)
  | _, EmptyString => head            (* head == sep * len(head) *)
  | _, _ => rstrip "/" head
  end.

(** ** Hashing

    Hashes are machine words ([Py_hash_t] signed, [Py_uhash_t] unsigned, 64
    bits wide); -1 is reserved for errors and never the hash of an object. *)

Definition M64 : Z := 2 ^ 64.

(** Cast to [Py_uhash_t]. *)
Definition u64 (x : Z) : Z := x mod M64.

(** Cast to [Py_hash_t]. *)
Definition s64 (x : Z) : Z :=
  let u := u64 x in if u <? 2 ^ 63 then u else u - M64.

Definition avoid_reserved (h : Z) : Z :=
  let h' := s64 h in if h' =? -1 then -2 else h'.

(** The two tuple-hash algorithms of CPython: the multiplicative one (up to
    3.7) and the xxHash-derived one (3.8 and later). *)
Inductive TupleHashAlg : Type :=
| TupleHashLegacy
| TupleHashXX.

(** What varies between interpreter processes: the (seeded) hash of strings,
    the address-derived hashes of [None] and of plain objects, and the
    tuple-hash algorithm of the interpreter version. *)
Record Runtime : Type := {
  str_hash : string -> Z;
  none_hash : Z;
  id_hash : nat -> Z;
  tuple_alg : TupleHashAlg
}.

(** [hash(n)] for an integer: reduction modulo the Mersenne prime 2^61 - 1,
    sign preserved. *)
Definition int_hash (z : Z) : Z :=
  let r := Z.sgn z * (Z.abs z mod (2 ^ 61 - 1)) in
  if r =? -1 then -2 else r.

Definition val_hash (rt : Runtime) (v : PyVal) : Z :=
  match v with
  | VStr s => avoid_reserved (str_hash rt s)
  | VInt z => int_hash z
  | VNone => avoid_reserved (none_hash rt)
  end.

(** xxHash-derived tuple hash. *)
Definition XXPRIME_1 : Z := 11400714785074694791.
Definition XXPRIME_2 : Z := 14029467366897019727.
Definition XXPRIME_5 : Z := 2870177450012600261.

Definition xxrotate (x : Z) : Z :=
  u64 (Z.lor (Z.shiftl x 31) (Z.shiftr x 33)).

Definition xx_round (acc lane : Z) : Z :=
  let acc := u64 (acc + u64 lane * XXPRIME_2) in
  let acc := xxrotate acc in
  u64 (acc * XXPRIME_1).

Definition xx_finish (len : Z) (acc : Z) : Z :=
  let acc := u64 (acc + Z.lxor len (Z.lxor XXPRIME_5 3527539)) in
  if acc =? M64 - 1 then 1546275796 else s64 acc.

Definition xx_tuple_hash (items : list Z) : Z :=
  xx_finish (Z.of_nat (List.length items)) (fold_left xx_round items XXPRIME_5).

(** Multiplicative tuple hash; the state is (x, mult, len). *)
Definition legacy_round (st : Z * Z * Z) (y : Z) : Z * Z * Z :=
  let '(x, mult, len) := st in
  let len := len - 1 in
  let x := u64 (Z.lxor x (u64 y) * mult) in
  let mult := u64 (mult + (82520 + len + len)) in
  (x, mult, len).

Definition legacy_finish (st : Z * Z * Z) : Z :=
  let '(x, _, _) := st in
  let x := u64 (x + 97531) in
  if x =? M64 - 1 then -2 else s64 x.

Definition legacy_tuple_hash (items : list Z) : Z :=
  legacy_finish
    (fold_left legacy_round items (3430008, 1000003, Z.of_nat (List.length items))).

(** The last step of both algorithms on the unsigned accumulator [x]: the
    reserved word is replaced by [d], any other is cast to [Py_hash_t]. *)
Definition replace_reserved (d : Z) (x : Z) : Z :=
  if x =? M64 - 1 then d else s64 x.

(** [hash(t)] for a tuple [t], given the hashes of its items. *)
Definition tuple_hash (rt : Runtime) (items : list Z) : Z :=
  match tuple_alg rt with
  | TupleHashLegacy => legacy_tuple_hash items
  | TupleHashXX => xx_tuple_hash items
  end.

(** ** Dict and set displays

    A dict keeps its entries in insertion order; [km stored key] is the
    test the table applies to decide that [key] is already present. *)

Section Dict.
Context {K V : Type}.
Variable km : K -> K -> bool.

Fixpoint dict_setitem (d : list (K * V)) (k : K) (v : V) : list (K * V) :=
  match d with
  | [] => [(k, v)]
  | (k0, v0) :: d' =>
      if km k0 k then (k0, v) :: d' else (k0, v0) :: dict_setitem d' k v
  end.

(** [{k1: v1, k2: v2, ...}] *)
Definition dict_display (items : list (K * V)) : list (K * V) :=
  fold_left (fun d kv => dict_setitem d (fst kv) (snd kv)) items [].

(** [d[k]] *)
Fixpoint dict_getitem (d : list (K * V)) (k : K) : Exc V :=
  match d with
  | [] => Raise KeyError
  | (k0, v0) :: d' => if km k0 k then Ok v0 else dict_getitem d' k
  end.

(** [k in d] *)
Definition dict_contains (d : list (K * V)) (k : K) : bool :=
  existsb (fun kv => km (fst kv) k) d.
End Dict.

Section PySet.
Context {K : Type}.
Variable km : K -> K -> bool.

Definition set_add (s : list K) (k : K) : list K :=
  if existsb (fun k0 => km k0 k) s then s else s ++ [k].

(** [{k1, k2, ...}] *)
Definition set_display (items : list K) : list K :=
  fold_left set_add items [].
End PySet.

End Py.

Import Py.

(* ================================================================== *)
(** * validation.py *)
(* ================================================================== *)

(** ** Placeholder classes *)

(** [class TemplatePlaceholder(namedtuple("TemplatePlaceholder", "placeholder"))] *)
Record TemplatePlaceholder : Type := mkTemplatePlaceholder {
  template_placeholder : string
}.

(** The tuple built by [__new__] from a string: ["<" + placeholder + ">"]. *)
Definition TemplatePlaceholder_of (placeholder : string) : TemplatePlaceholder :=
  {| template_placeholder := "<" ++ placeholder ++ ">" |}.

(** [TemplatePlaceholder.__new__]: the concatenation ["<" + placeholder]
    raises [TypeError] unless [placeholder] is a string. *)
Definition TemplatePlaceholder_new (placeholder : PyVal) : Exc TemplatePlaceholder :=
  match placeholder with
  | VStr s => Ok (TemplatePlaceholder_of s)
  | VInt _ | VNone => Raise TypeError
  end.

Definition TemplatePlaceholder_str (self : TemplatePlaceholder) : string :=
  py_str (VStr (template_placeholder self)).

Definition TemplatePlaceholder_repr (self : TemplatePlaceholder) : string :=
  py_str (VStr (template_placeholder self)).

(** The [type] property. *)
Definition TemplatePlaceholder_type (self : TemplatePlaceholder) : string :=
  strip "<>" (py_str (VStr (template_placeholder self))).

(** [class GenericPlaceholder(namedtuple("GenericPlaceholder", "placeholder value"))] *)
Record GenericPlaceholder : Type := mkGenericPlaceholder {
  generic_placeholder : string;
  generic_value : PyVal
}.

Definition GenericPlaceholder_of (value : PyVal) : GenericPlaceholder :=
  {| generic_placeholder := "<generic>"; generic_value := value |}.

(** [GenericPlaceholder.__new__]: any value is taken as it is. *)
Definition GenericPlaceholder_new (value : PyVal) : Exc GenericPlaceholder :=
  Ok (GenericPlaceholder_of value).

Definition GenericPlaceholder_str (self : GenericPlaceholder) : string :=
  py_str (generic_value self).

Definition GenericPlaceholder_repr (self : GenericPlaceholder) : string :=
  py_str (generic_value self).

Definition GenericPlaceholder_type (self : GenericPlaceholder) : string :=
  strip "<>" (py_str (VStr (generic_placeholder self))).

(** [GenericPlaceholder.__hash__]: [hash((self.placeholder, self.value))]. *)
Definition GenericPlaceholder_hash (rt : Runtime) (self : GenericPlaceholder) : Z :=
  tuple_hash rt [val_hash rt (VStr (generic_placeholder self));
                 val_hash rt (generic_value self)].

(** The objects that occur in patterns and in comparisons.  A
    [PlaceholderGroup] compares and hashes by identity (the class defines
    neither [__eq__] nor [__hash__]), so each group object carries the
    identity [oid] it got when it was created. *)
Inductive PyObj : Type :=
| OVal (v : PyVal)
| OTemplate (t : TemplatePlaceholder)
| OGeneric (g : GenericPlaceholder)
| OGroup (oid : nat) (parts : list PyObj).

(** [isinstance(other, GenericPlaceholder)] *)
Definition isinstance_GenericPlaceholder (other : PyObj) : bool :=
  match other with
  | OGeneric _ => true
  | _ => false
  end.

(** [GenericPlaceholder.__eq__] *)
Definition GenericPlaceholder_eq (self : GenericPlaceholder) (other : PyObj) : bool :=
  match other with
  | OGeneric o => String.eqb (generic_placeholder self) (generic_placeholder o)
  | _ => false
  end.

(** [class PlaceholderGroup]: [__init__] stores the positional arguments. *)
Definition PlaceholderGroup (oid : nat) (args : list PyObj) : PyObj :=
  OGroup oid args.

Definition PlaceholderGroup_len (parts : list PyObj) : Z :=
  Z.of_nat (List.length parts).

(** [self.parts[index]] for an integer index: negative indexes count from
    the end, anything out of range raises [IndexError]. *)
Definition PlaceholderGroup_getitem (parts : list PyObj) (index : Z) : Exc PyObj :=
  let i := if index <? 0 then index + Z.of_nat (List.length parts) else index in
  if i <? 0 then Raise IndexError
  else match nth_error parts (Z.to_nat i) with
       | Some p => Ok p
       | None => Raise IndexError
       end.

(** ** Comparison and hashing of pattern objects *)

(** [a is b], where the model tracks identity. *)
Definition py_is (a b : PyObj) : bool :=
  match a, b with
  | OVal VNone, OVal VNone => true
  | OGroup i _, OGroup j _ => Nat.eqb i j
  | _, _ => false
  end.

(** [type(a).__eq__(a, b)]; [None] stands for [NotImplemented].  A template
    placeholder inherits the comparison of tuples (item by item, then by
    length), a group and [None] that of [object]. *)
Definition method_eq (a b : PyObj) : option bool :=
  match a with
  | OGeneric g => Some (GenericPlaceholder_eq g b)
  | OTemplate t =>
      match b with
      | OTemplate t' =>
          Some (String.eqb (template_placeholder t) (template_placeholder t'))
      | OGeneric _ => Some false
      | _ => None
      end
  | OVal (VStr s) =>
      match b with OVal (VStr s') => Some (String.eqb s s') | _ => None end
  | OVal (VInt z) =>
      match b with OVal (VInt z') => Some (Z.eqb z z') | _ => None end
  | OVal VNone | OGroup _ _ => if py_is a b then Some true else None
  end.

(** [a == b]: the method of the left operand, then the reflected one, then
    identity. *)
Definition py_eq (a b : PyObj) : bool :=
  match method_eq a b with
  | Some r => r
  | None =>
      match method_eq b a with
      | Some r => r
      | None => py_is a b
      end
  end.

(** [hash(o)] *)
Definition py_hash (rt : Runtime) (o : PyObj) : Z :=
  match o with
  | OVal v => val_hash rt v
  | OTemplate t => tuple_hash rt [val_hash rt (VStr (template_placeholder t))]
  | OGeneric g => GenericPlaceholder_hash rt g
  | OGroup oid _ => avoid_reserved (id_hash rt oid)
  end.

(** The test a dict or set applies to a stored key: same object, or same
    hash and [stored == key]. *)
Definition key_match (rt : Runtime) (stored key : PyObj) : bool :=
  py_is stored key || ((py_hash rt stored =? py_hash rt key) && py_eq stored key).

(** ** Placeholder constants *)

Definition IntegerPlaceholder : TemplatePlaceholder := TemplatePlaceholder_of "integer".
Definition AnyPlaceholder : TemplatePlaceholder := TemplatePlaceholder_of "any".
Definition SinglePlaceholder : TemplatePlaceholder := TemplatePlaceholder_of "single".
Definition ExclAlternativePlaceholder : TemplatePlaceholder :=
  TemplatePlaceholder_of "exclusive".
Definition UniquePlaceholder : TemplatePlaceholder := TemplatePlaceholder_of "unique".

(** ** Pattern registry *)

(** Modelled from the spec: the predictor types ([PythonPredictorType],
    [TensorFlowPredictorType], [ONNXPredictorType], [PredictorType]) are
    imported from cortex.lib.api, which is not part of this module.  The
    spec describes them as a closed set of string tags; three of them are
    keys of the registry, and [OtherPredictorType] stands for every other
    tag a caller may pass. *)
Inductive PredictorType : Type :=
| PythonPredictorType
| TensorFlowPredictorType
| ONNXPredictorType
| OtherPredictorType (tag : string).

Definition PredictorType_eqb (a b : PredictorType) : bool :=
  match a, b with
  | PythonPredictorType, PythonPredictorType => true
  | TensorFlowPredictorType, TensorFlowPredictorType => true
  | ONNXPredictorType, ONNXPredictorType => true
  | OtherPredictorType s, OtherPredictorType s' => String.eqb s s'
  | _, _ => false
  end.

(** A pattern tree: what the values of [model_template] are made of. *)
Inductive Pattern : Type :=
| PNone
| PObj (o : PyObj)
| PDict (d : list (PyObj * Pattern))
| PSet (s : list PyObj).

Definition Generic (s : string) : PyObj := OGeneric (GenericPlaceholder_of (VStr s)).

(** [model_template].  The three [PlaceholderGroup] objects are numbered in
    the order in which the display creates them. *)
Definition model_template (rt : Runtime) : list (PredictorType * Pattern) :=
  dict_display PredictorType_eqb
    [ (PythonPredictorType,
       PDict (dict_display (key_match rt)
                [ (OTemplate IntegerPlaceholder, PObj (OTemplate AnyPlaceholder)) ]));
      (TensorFlowPredictorType,
       PDict (dict_display (key_match rt)
                [ (OTemplate IntegerPlaceholder,
                   PDict (dict_display (key_match rt)
                            [ (OTemplate AnyPlaceholder, PNone);
                              (Generic "saved_model.pb", PNone);
                              (Generic "variables",
                               PSet (set_display (key_match rt)
                                       [ Generic "variables.index";
                                         PlaceholderGroup 0
                                           [ Generic "variables.data-00000-of-";
                                             OTemplate AnyPlaceholder ];
                                         OTemplate AnyPlaceholder ])) ])) ]));
      (ONNXPredictorType,
       PDict (dict_display (key_match rt)
                [ (OTemplate IntegerPlaceholder,
                   PSet (set_display (key_match rt)
                           [ PlaceholderGroup 1
                               [ OTemplate SinglePlaceholder; Generic ".onnx" ] ]));
                  (PlaceholderGroup 2
                     [ OTemplate ExclAlternativePlaceholder;
                       OTemplate SinglePlaceholder;
                       Generic ".onnx" ],
                   PNone) ])) ].

(** [dirs_model_pattern]: the subscript is evaluated first, so a missing key
    raises before any dict is built. *)
Definition dirs_model_pattern (rt : Runtime) (predictor_type : PredictorType)
  : Exc Pattern :=
  tree <- dict_getitem PredictorType_eqb (model_template rt) predictor_type ;;
  Ok (PDict (dict_display (key_match rt) [ (OTemplate UniquePlaceholder, tree) ])).

(** [model_pattern] *)
Definition model_pattern (rt : Runtime) (predictor_type : PredictorType)
  : Exc Pattern :=
  dict_getitem PredictorType_eqb (model_template rt) predictor_type.

(** [len(p) > 0] for a dict or a set. *)
Definition Pattern_nonempty (p : Pattern) : bool :=
  match p with
  | PDict (_ :: _) => true
  | PSet (_ :: _) => true
  | _ => false
  end.

(** [predictor_type in model_template] *)
Definition registered (rt : Runtime) (predictor_type : PredictorType) : bool :=
  dict_contains PredictorType_eqb (model_template rt) predictor_type.

(** ** Tree builders *)

(** The tree a builder returns: nested dicts keyed by path segment, a file
    mapping to the terminal marker. *)
Inductive PathTree : Type :=
| Leaf
| Dir (children : list (string * PathTree)).

(** [models_tree_from_s3_top_paths]: the loop only rebinds the local
    [model_name]; the function then returns a new empty dict. *)
Definition models_tree_from_s3_top_paths
  (s3_top_paths : list string) (predictor_type : PredictorType) : PathTree :=
  let model_name :=
    fold_left (fun (_ : option string) s3_top_path => Some (os_path_dirname s3_top_path))
              s3_top_paths None in
  Dir [].

(** [models_tree_from_s3_path] *)
Definition models_tree_from_s3_path
  (s3_path : list string) (predictor_type : PredictorType) : PathTree :=
  Dir [].

(** [a == b] on trees: dicts are equal when they have the same number of
    keys and every key of the one maps to an equal value in the other. *)
Fixpoint PathTree_eqb (a b : PathTree) : bool :=
  match a, b with
  | Leaf, Leaf => true
  | Dir ca, Dir cb =>
      Nat.eqb (List.length ca) (List.length cb)
      && forallb (fun kv =>
                    match dict_getitem String.eqb cb (fst kv) with
                    | Ok v' => PathTree_eqb (snd kv) v'
                    | Raise _ => false
                    end) ca
  | _, _ => false
  end.

(** *** The builders as calls on a store

    A call returns a reference to a dict object that lives in the store of
    the interpreter, where later code can change it.  [{}] creates a new
    object on every evaluation; the store hands out references in increasing
    order and never takes one back while the object is in use. *)

(** What a key of a tree dict maps to: the terminal marker or another dict
    object. *)
Inductive TreeVal : Type :=
| TLeaf
| TRef (r : nat).

Record Store : Type := mkStore {
  store_next : nat;
  store_dicts : list (nat * list (string * TreeVal))
}.

(** The entries of the dict object [r], if there is one. *)
Fixpoint dicts_get (dicts : list (nat * list (string * TreeVal))) (r : nat)
  : option (list (string * TreeVal)) :=
  match dicts with
  | [] => None
  | (r0, entries) :: dicts' => if Nat.eqb r0 r then Some entries else dicts_get dicts' r
  end.

Definition store_get (st : Store) (r : nat) : option (list (string * TreeVal)) :=
  dicts_get (store_dicts st) r.

(** [{}]: a new, empty dict object. *)
Definition store_new_dict (st : Store) : nat * Store :=
  (store_next st,
   {| store_next := S (store_next st);
      store_dicts := (store_next st, []) :: store_dicts st |}).

(** [d[key] = value] on the dict object [r]. *)
Definition store_setitem (st : Store) (r : nat) (key : string) (value : TreeVal)
  : Store :=
  match store_get st r with
  | Some entries =>
      {| store_next := store_next st;
         store_dicts := (r, dict_setitem String.eqb entries key value) :: store_dicts st |}
  | None => st
  end.

(** All of [f x] for [x] in [l], if every one is defined. *)
Fixpoint map_option {A B : Type} (f : A -> option B) (l : list A) : option (list B) :=
  match l with
  | [] => Some []
  | x :: l' =>
      match f x, map_option f l' with
      | Some y, Some ys => Some (y :: ys)
      | _, _ => None
      end
  end.

(** The tree that the dict object [r] holds in the store, read down to
    [fuel] levels. *)
Fixpoint store_tree (fuel : nat) (st : Store) (r : nat) : option PathTree :=
  match fuel with
  | O => None
  | S fuel' =>
      match store_get st r with
      | None => None
      | Some entries =>
          option_map Dir
            (map_option
               (fun kv =>
                  match snd kv with
                  | TLeaf => Some (fst kv, Leaf)
                  | TRef r' => option_map (pair (fst kv)) (store_tree fuel' st r')
                  end)
               entries)
      end
  end.

(** A call of [models_tree_from_s3_top_paths]: the loop rebinds a local
    name and touches no object; [return {}] creates the result. *)
Definition models_tree_from_s3_top_paths_call
  (s3_top_paths : list string) (predictor_type : PredictorType) (st : Store)
  : nat * Store :=
  let model_name :=
    fold_left (fun (_ : option string) s3_top_path => Some (os_path_dirname s3_top_path))
              s3_top_paths None in
  store_new_dict st.

(** A call of [models_tree_from_s3_path]. *)
Definition models_tree_from_s3_path_call
  (s3_path : list string) (predictor_type : PredictorType) (st : Store)
  : nat * Store :=
  store_new_dict st.

(** The store of a process that has created no tree yet. *)
Definition empty_store : Store := {| store_next := 0; store_dicts := [] |}.

(** *** What the specification asks of a builder

    The definitions below follow the words of the specification, not the
    code: a path is cut into segments at the delimiter, every segment is a
    key one level below the previous one, and the last segment maps to the
    terminal marker. *)

(** [p.split("/")] *)
Fixpoint spec_segments (p : string) : list string :=
  match p with
  | EmptyString => [EmptyString]
  | String c p' =>
      if Ascii.eqb c "/" then EmptyString :: spec_segments p'
      else match spec_segments p' with
           | seg :: segs => String c seg :: segs
           | [] => [String c EmptyString]
           end
  end.

(** The chain of segments is present in the tree and ends in a leaf. *)
Fixpoint spec_has_path (segs : list string) (t : PathTree) : bool :=
  match segs, t with
  | [], _ => false
  | seg :: rest, Dir children =>
      match dict_getitem String.eqb children seg, rest with
      | Ok Leaf, [] => true
      | Ok sub, _ :: _ => spec_has_path rest sub
      | _, _ => false
      end
  | _ :: _, Leaf => false
  end.

(** Every listed path is mirrored in the tree. *)
Definition spec_mirrors (paths : list string) (t : PathTree) : bool :=
  forallb (fun p => spec_has_path (spec_segments p) t) paths.

(** ** The registry entries, entry by entry

    The objects and trees that the displays of [model_template] are expected
    to produce, written out; the properties below relate them to the values
    the displays compute. *)

Definition variables_data_group : PyObj :=
  PlaceholderGroup 0 [ Generic "variables.data-00000-of-"; OTemplate AnyPlaceholder ].

Definition onnx_file_group : PyObj :=
  PlaceholderGroup 1 [ OTemplate SinglePlaceholder; Generic ".onnx" ].

Definition onnx_exclusive_group : PyObj :=
  PlaceholderGroup 2
    [ OTemplate ExclAlternativePlaceholder; OTemplate SinglePlaceholder; Generic ".onnx" ].

Definition variables_set : Pattern :=
  PSet [ Generic "variables.index"; variables_data_group; OTemplate AnyPlaceholder ].

(** The version directory of a TensorFlow model, all three keys present. *)
Definition tensorflow_version_entries : list (PyObj * Pattern) :=
  [ (OTemplate AnyPlaceholder, PNone);
    (Generic "saved_model.pb", PNone);
    (Generic "variables", variables_set) ].

(** The same display when the two literal keys are taken for one key. *)
Definition tensorflow_version_entries_merged : list (PyObj * Pattern) :=
  [ (OTemplate AnyPlaceholder, PNone);
    (Generic "saved_model.pb", variables_set) ].

Definition onnx_entries : list (PyObj * Pattern) :=
  [ (OTemplate IntegerPlaceholder, PSet [ onnx_file_group ]);
    (onnx_exclusive_group, PNone) ].

(** ** Concrete runtimes *)

(** An interpreter process in which every string has the same hash. *)
Definition colliding_runtime : Runtime :=
  {| str_hash := fun _ => 0;
     none_hash := 93824992;
     id_hash := fun oid => 140737488 + 16 * Z.of_nat oid;
     tuple_alg := TupleHashLegacy |}.

(** ** A concrete runtime

    An interpreter process with a fixed (polynomial) string hash and the
    xxHash-derived tuple hash; used to evaluate the definitions. *)

Definition sample_str_hash (s : string) : Z :=
  fold_left (fun h c => 31 * h + Z.of_nat (nat_of_ascii c)) (list_ascii_of_string s) 7.

Definition sample_runtime : Runtime :=
  {| str_hash := sample_str_hash;
     none_hash := 93824992;
     id_hash := fun oid => 140737488 + 16 * Z.of_nat oid;
     tuple_alg := TupleHashXX |}.

(* ================================================================== *)
(** * Properties *)
(* ================================================================== *)

(** ** Dict displays *)

Section DictFacts.
Context {K V : Type}.
Variable km : K -> K -> bool.

Lemma dict_setitem_not_nil (d : list (K * V)) (k : K) (v : V) :
  dict_setitem km d k v <> [].
Proof.
  destruct d as [| [k0 v0] d']; simpl.
  - discriminate.
  - destruct (km k0 k); discriminate.
Qed.

Lemma dict_fold_not_nil (items d : list (K * V)) :
  d <> [] ->
  fold_left (fun d kv => dict_setitem km d (fst kv) (snd kv)) items d <> [].
Proof.
  revert d. induction items as [| kv items IH]; intros d Hd; simpl.
  - exact Hd.
  - apply IH. apply dict_setitem_not_nil.
Qed.

Lemma dict_display_not_nil (kv : K * V) (items : list (K * V)) :
  dict_display km (kv :: items) <> [].
Proof.
  unfold dict_display. simpl. apply dict_fold_not_nil. discriminate.
Qed.

Lemma dict_display_single (k : K) (v : V) :
  dict_display km [(k, v)] = [(k, v)].
Proof. reflexivity. Qed.

Lemma dict_contains_getitem (d : list (K * V)) (k : K) :
  dict_contains km d k = true <-> exists v, dict_getitem km d k = Ok v.
Proof.
  induction d as [| [k0 v0] d IH]; simpl.
  - split; [discriminate | intros [v Hv]; discriminate].
  - destruct (km k0 k); simpl.
    + split; [intros _; now exists v0 | reflexivity].
    + exact IH.
Qed.

Lemma dict_getitem_missing (d : list (K * V)) (k : K) :
  dict_contains km d k = false -> dict_getitem km d k = Raise KeyError.
Proof.
  induction d as [| [k0 v0] d IH]; simpl; [reflexivity |].
  destruct (km k0 k); simpl; [discriminate | exact IH].
Qed.
End DictFacts.

(** ** The registry *)

Lemma Pattern_nonempty_display (km : PyObj -> PyObj -> bool)
  (kv : PyObj * Pattern) (items : list (PyObj * Pattern)) :
  Pattern_nonempty (PDict (dict_display km (kv :: items))) = true.
Proof.
  pose proof (dict_display_not_nil km kv items) as H.
  destruct (dict_display km (kv :: items)); [congruence | reflexivity].
Qed.

Lemma registered_iff (rt : Runtime) (pt : PredictorType) :
  registered rt pt = true <->
  In pt [PythonPredictorType; TensorFlowPredictorType; ONNXPredictorType].
Proof.
  unfold registered. split.
  - destruct pt; simpl; intros H; try discriminate; auto.
  - intros [H | [H | [H | []]]]; subst pt; reflexivity.
Qed.

(** C9: the registry's entry for the Python (generic-script) predictor type,
    as [model_pattern] returns it, is the one-entry mapping from the integer
    placeholder to the any placeholder. *)
Theorem model_pattern_python (rt : Runtime) :
  model_pattern rt PythonPredictorType
  = Ok (PDict [ (OTemplate IntegerPlaceholder, PObj (OTemplate AnyPlaceholder)) ]).
Proof. reflexivity. Qed.

(** C2: for a predictor type that is not a key of the registry, both
    [model_pattern] and [dirs_model_pattern] raise [KeyError]; no tree, not
    even a partly built one, is returned. *)
Theorem unknown_predictor_type_raises (rt : Runtime) (pt : PredictorType) :
  registered rt pt = false ->
  model_pattern rt pt = Raise KeyError
  /\ dirs_model_pattern rt pt = Raise KeyError.
Proof.
  intros H. unfold registered in H.
  pose proof (dict_getitem_missing PredictorType_eqb _ _ H) as Hget.
  unfold model_pattern, dirs_model_pattern. rewrite Hget. split; reflexivity.
Qed.

Lemma unknown_predictor_type_raises_witness :
  registered sample_runtime (OtherPredictorType "tensorflow-neuron") = false
  /\ model_pattern sample_runtime (OtherPredictorType "tensorflow-neuron")
     = Raise KeyError
  /\ dirs_model_pattern sample_runtime (OtherPredictorType "tensorflow-neuron")
     = Raise KeyError.
Proof.
  split; [reflexivity |].
  apply (unknown_predictor_type_raises sample_runtime
           (OtherPredictorType "tensorflow-neuron")).
  reflexivity.
Defined.

(** C1: for every predictor type that is a key of the registry (Python,
    TensorFlow, ONNX), [dirs_model_pattern] returns the tree of
    [model_pattern] wrapped one level deeper under the [unique] placeholder,
    and both trees are non-empty. *)
Theorem dirs_model_pattern_wraps_model_pattern (rt : Runtime) (pt : PredictorType) :
  registered rt pt = true ->
  exists tree dirs,
    model_pattern rt pt = Ok tree
    /\ dirs_model_pattern rt pt = Ok dirs
    /\ dirs = PDict [ (OTemplate UniquePlaceholder, tree) ]
    /\ Pattern_nonempty tree = true
    /\ Pattern_nonempty dirs = true.
Proof.
  intros H. apply registered_iff in H.
  unfold dirs_model_pattern, model_pattern.
  destruct H as [H | [H | [H | []]]]; subst pt;
    (eexists; eexists; split; [reflexivity |]; split; [reflexivity |];
     split; [reflexivity |]; split; [| reflexivity]);
    apply Pattern_nonempty_display.
Qed.

Lemma dirs_model_pattern_wraps_model_pattern_witness :
  registered sample_runtime TensorFlowPredictorType = true
  /\ exists tree dirs,
      model_pattern sample_runtime TensorFlowPredictorType = Ok tree
      /\ dirs_model_pattern sample_runtime TensorFlowPredictorType = Ok dirs
      /\ dirs = PDict [ (OTemplate UniquePlaceholder, tree) ]
      /\ Pattern_nonempty tree = true
      /\ Pattern_nonempty dirs = true.
Proof.
  split; [reflexivity |].
  apply (dirs_model_pattern_wraps_model_pattern sample_runtime TensorFlowPredictorType).
  reflexivity.
Defined.

(** ** Strings *)

Lemma length_append (a b : string) :
  String.length (a ++ b) = (String.length a + String.length b)%nat.
Proof. induction a as [| x a IH]; simpl; [reflexivity | now rewrite IH]. Qed.

Lemma append_inj_r (a b c : string) : (a ++ c = b ++ c)%string -> a = b.
Proof.
  intros H.
  assert (Hlen : String.length a = String.length b).
  { apply (f_equal String.length) in H.
    rewrite !length_append in H. lia. }
  revert b H Hlen. induction a as [| x a IH]; intros [| y b] H Hlen;
    simpl in *; try discriminate; [reflexivity |].
  injection H as -> H. f_equal. apply IH; [exact H | lia].
Qed.

Lemma rstrip_snoc (chars s : string) (c : ascii) :
  char_in c chars = true ->
  rstrip chars (s ++ String c EmptyString) = rstrip chars s.
Proof.
  intros Hc. induction s as [| a s IH]; simpl.
  - now rewrite Hc.
  - now rewrite IH.
Qed.

Lemma lstrip_snoc (chars s : string) (c : ascii) :
  char_in c chars = true ->
  lstrip chars (s ++ String c EmptyString)
  = match lstrip chars s with
    | EmptyString => EmptyString
    | r => (r ++ String c EmptyString)%string
    end.
Proof.
  intros Hc. induction s as [| a s IH]; simpl.
  - now rewrite Hc.
  - destruct (char_in a chars); [exact IH | reflexivity].
Qed.

Lemma strip_snoc (chars s : string) (c : ascii) :
  char_in c chars = true ->
  strip chars (s ++ String c EmptyString) = strip chars s.
Proof.
  intros Hc. unfold strip. rewrite lstrip_snoc by exact Hc.
  destruct (lstrip chars s) as [| a r] eqn:E; [reflexivity |].
  now rewrite rstrip_snoc.
Qed.

Lemma strip_cons (chars s : string) (c : ascii) :
  char_in c chars = true -> strip chars (String c s) = strip chars s.
Proof. intros Hc. unfold strip. simpl. now rewrite Hc. Qed.

Lemma lstrip_length (chars s : string) :
  (String.length (lstrip chars s) <= String.length s)%nat.
Proof.
  induction s as [| a s IH]; simpl; [lia |].
  destruct (char_in a chars); simpl; lia.
Qed.

Lemma rstrip_length (chars s : string) :
  (String.length (rstrip chars s) <= String.length s)%nat.
Proof.
  induction s as [| a s IH]; simpl; [lia |].
  destruct (rstrip chars s); [destruct (char_in a chars) |]; simpl in *; lia.
Qed.

Lemma lstrip_fixed (chars s : string) :
  lstrip chars s = s <-> starts_with_any chars s = false.
Proof.
  destruct s as [| a s]; simpl; [tauto |].
  destruct (char_in a chars) eqn:E; [| tauto].
  split; [| discriminate].
  intros H. pose proof (lstrip_length chars s) as L. rewrite H in L.
  simpl in L. lia.
Qed.

Lemma rstrip_fixed (chars s : string) :
  rstrip chars s = s <-> ends_with_any chars s = false.
Proof.
  induction s as [| a s IH]; simpl; [tauto |].
  destruct s as [| b s].
  - simpl. destruct (char_in a chars); split; congruence.
  - destruct (rstrip chars (String b s)) as [| x r] eqn:E.
    + split.
      * destruct (char_in a chars); discriminate.
      * intros H. apply IH in H. discriminate.
    + rewrite <- IH. split; congruence.
Qed.

Lemma rstrip_ends (chars s : string) :
  ends_with_any chars (rstrip chars s) = false.
Proof.
  induction s as [| a s IH]; simpl; [reflexivity |].
  destruct (rstrip chars s) as [| x r] eqn:E.
  - destruct (char_in a chars) eqn:Ea; simpl; [reflexivity | exact Ea].
  - exact IH.
Qed.

Lemma lstrip_starts (chars s : string) :
  starts_with_any chars (lstrip chars s) = false.
Proof.
  induction s as [| a s IH]; simpl; [reflexivity |].
  destruct (char_in a chars) eqn:Ea; [exact IH | simpl; exact Ea].
Qed.

(** [s.strip(chars) == s] exactly when [s] neither begins nor ends with one
    of [chars]. *)
Lemma strip_fixed (chars s : string) :
  strip chars s = s <->
  starts_with_any chars s = false /\ ends_with_any chars s = false.
Proof.
  unfold strip. split.
  - intros H. split.
    + apply lstrip_fixed.
      pose proof (rstrip_length chars (lstrip chars s)) as L1.
      pose proof (lstrip_length chars s) as L2.
      rewrite H in L1.
      destruct s as [| a s]; [reflexivity |]. simpl in *.
      destruct (char_in a chars); [| reflexivity].
      pose proof (lstrip_length chars s). lia.
    + rewrite <- H. apply rstrip_ends.
  - intros [Hs He]. apply lstrip_fixed in Hs. rewrite Hs.
    now apply rstrip_fixed.
Qed.

(** ** Placeholders *)

Lemma TemplatePlaceholder_new_str (kind : string) :
  TemplatePlaceholder_new (VStr kind) = Ok (TemplatePlaceholder_of kind).
Proof. reflexivity. Qed.

(** The [type] property undoes the bracketing with [strip], which removes
    every leading and trailing angle bracket, those of the kind included. *)
Lemma TemplatePlaceholder_type_of (kind : string) :
  TemplatePlaceholder_type (TemplatePlaceholder_of kind) = strip "<>" kind.
Proof.
  unfold TemplatePlaceholder_type, TemplatePlaceholder_of. simpl py_str.
  change ("<" ++ kind ++ ">")%string with (String "<" (kind ++ ">")).
  rewrite strip_cons by reflexivity.
  apply strip_snoc. reflexivity.
Qed.

Lemma TemplatePlaceholder_of_inj (k1 k2 : string) :
  TemplatePlaceholder_of k1 = TemplatePlaceholder_of k2 -> k1 = k2.
Proof.
  unfold TemplatePlaceholder_of. intros H. injection H as H.
  now apply append_inj_r in H.
Qed.

Lemma TemplatePlaceholder_eta (t t' : TemplatePlaceholder) :
  template_placeholder t = template_placeholder t' -> t = t'.
Proof. destruct t, t'; simpl; congruence. Qed.

Lemma py_eq_templates (t t' : TemplatePlaceholder) :
  py_eq (OTemplate t) (OTemplate t') = true <-> t = t'.
Proof.
  unfold py_eq; simpl. rewrite String.eqb_eq. split.
  - apply TemplatePlaceholder_eta.
  - now intros ->.
Qed.

Lemma key_match_templates (rt : Runtime) (t t' : TemplatePlaceholder) :
  key_match rt (OTemplate t) (OTemplate t') = true <-> t = t'.
Proof.
  unfold key_match. simpl py_is. rewrite orb_false_l, andb_true_iff.
  rewrite py_eq_templates. split.
  - tauto.
  - intros ->. split; [apply Z.eqb_refl | reflexivity].
Qed.

(** C3: two generic placeholders compare equal whatever values they carry,
    since [__eq__] looks at the kind tag only; and a generic placeholder is
    not equal to anything that is not a generic placeholder. *)
Theorem GenericPlaceholder_eq_ignores_value
  (v1 v2 : PyVal) (g1 g2 : GenericPlaceholder) (other : PyObj) :
  GenericPlaceholder_new v1 = Ok g1 ->
  GenericPlaceholder_new v2 = Ok g2 ->
  isinstance_GenericPlaceholder other = false ->
  GenericPlaceholder_eq g1 (OGeneric g2) = true
  /\ py_eq (OGeneric g1) (OGeneric g2) = true
  /\ GenericPlaceholder_eq g1 other = false
  /\ py_eq (OGeneric g1) other = false.
Proof.
  unfold GenericPlaceholder_new. intros H1 H2 Hother.
  injection H1 as <-. injection H2 as <-.
  repeat split; try reflexivity;
    destruct other; simpl in Hother; try discriminate; reflexivity.
Qed.

Lemma GenericPlaceholder_eq_ignores_value_witness :
  GenericPlaceholder_new (VStr "saved_model.pb")
  = Ok (GenericPlaceholder_of (VStr "saved_model.pb"))
  /\ GenericPlaceholder_new (VInt 7) = Ok (GenericPlaceholder_of (VInt 7))
  /\ isinstance_GenericPlaceholder (OTemplate AnyPlaceholder) = false
  /\ GenericPlaceholder_eq (GenericPlaceholder_of (VStr "saved_model.pb"))
       (OGeneric (GenericPlaceholder_of (VInt 7))) = true
  /\ py_eq (OGeneric (GenericPlaceholder_of (VStr "saved_model.pb")))
       (OGeneric (GenericPlaceholder_of (VInt 7))) = true
  /\ GenericPlaceholder_eq (GenericPlaceholder_of (VStr "saved_model.pb"))
       (OTemplate AnyPlaceholder) = false
  /\ py_eq (OGeneric (GenericPlaceholder_of (VStr "saved_model.pb")))
       (OTemplate AnyPlaceholder) = false.
Proof.
  split; [reflexivity |]. split; [reflexivity |]. split; [reflexivity |].
  apply (GenericPlaceholder_eq_ignores_value
           (VStr "saved_model.pb") (VInt 7)
           (GenericPlaceholder_of (VStr "saved_model.pb"))
           (GenericPlaceholder_of (VInt 7))
           (OTemplate AnyPlaceholder)); reflexivity.
Defined.

(** C4, as stated, fails: the empty string is accepted by both
    constructors. *)
Lemma empty_placeholder_accepted :
  ~ raised (TemplatePlaceholder_new (VStr ""))
  /\ ~ raised (GenericPlaceholder_new (VStr ""))
  /\ TemplatePlaceholder_new (VStr "") = Ok {| template_placeholder := "<>" |}
  /\ GenericPlaceholder_new (VStr "")
     = Ok {| generic_placeholder := "<generic>"; generic_value := VStr "" |}.
Proof.
  repeat split; try reflexivity; intros [e He]; discriminate He.
Qed.

(** C4, amended: the constructors do not validate their argument.
    [GenericPlaceholder] accepts every value and stores it under the tag
    ["<generic>"]; [TemplatePlaceholder] accepts every string, the empty one
    included, and stores it between angle brackets; the only rejection is
    the [TypeError] of the concatenation when the kind is not a string. *)
Theorem placeholder_construction_unvalidated (v : PyVal) (kind : string) :
  GenericPlaceholder_new v
  = Ok {| generic_placeholder := "<generic>"; generic_value := v |}
  /\ TemplatePlaceholder_new (VStr kind)
     = Ok {| template_placeholder := "<" ++ kind ++ ">" |}
  /\ (raised (TemplatePlaceholder_new v) <-> forall s, v <> VStr s)
  /\ (raised (TemplatePlaceholder_new v) <->
      TemplatePlaceholder_new v = Raise TypeError).
Proof.
  split; [reflexivity |]. split; [reflexivity |]. split.
  - destruct v as [s | z |]; simpl; split.
    + intros [e He]. discriminate He.
    + intros H. now destruct (H s).
    + intros _ s. discriminate.
    + intros _. now exists TypeError.
    + intros _ s. discriminate.
    + intros _. now exists TypeError.
  - destruct v as [s | z |]; simpl; split;
      try (intros [e He]; discriminate He); try discriminate;
      try reflexivity; intros _; now exists TypeError.
Qed.

(** C5: the round trip of the kind through the [type] property, which the
    property attempts by removing the brackets that [__new__] added, fails
    in the code for the kind "<any": the placeholder is built, and its type
    is "any", not "<any". *)
Lemma type_of_bracketed_kind :
  TemplatePlaceholder_new (VStr "<any") = Ok (TemplatePlaceholder_of "<any")
  /\ TemplatePlaceholder_type (TemplatePlaceholder_of "<any") = "any"
  /\ TemplatePlaceholder_type (TemplatePlaceholder_of "<any") <> "<any".
Proof. repeat split; try reflexivity. discriminate. Qed.

(** Where the kind neither begins nor ends with an angle bracket, the
    round trip holds: constructing a [TemplatePlaceholder] and reading its
    [type] property gives the kind back. *)
Theorem TemplatePlaceholder_type_roundtrip (kind : string) :
  starts_with_any "<>" kind = false ->
  ends_with_any "<>" kind = false ->
  exists t,
    TemplatePlaceholder_new (VStr kind) = Ok t
    /\ TemplatePlaceholder_type t = kind.
Proof.
  intros Hs He. exists (TemplatePlaceholder_of kind). split; [reflexivity |].
  rewrite TemplatePlaceholder_type_of. apply strip_fixed. now split.
Qed.

Lemma TemplatePlaceholder_type_roundtrip_witness :
  starts_with_any "<>" "integer" = false
  /\ ends_with_any "<>" "integer" = false
  /\ exists t,
      TemplatePlaceholder_new (VStr "integer") = Ok t
      /\ TemplatePlaceholder_type t = "integer".
Proof.
  split; [reflexivity |]. split; [reflexivity |].
  apply (TemplatePlaceholder_type_roundtrip "integer"); reflexivity.
Defined.

(** The hypothesis of the round trip is also necessary. *)
Lemma TemplatePlaceholder_type_roundtrip_only (kind : string) :
  TemplatePlaceholder_type (TemplatePlaceholder_of kind) = kind ->
  starts_with_any "<>" kind = false /\ ends_with_any "<>" kind = false.
Proof. rewrite TemplatePlaceholder_type_of. apply strip_fixed. Qed.

(** C6: two [TemplatePlaceholder]s built from kind strings are equal exactly
    when the kinds are the same; built from the same kind they are the same
    tuple, match each other as dict keys and show the same text and type. *)
Theorem TemplatePlaceholder_equal_by_kind
  (k1 k2 : string) (t1 t2 : TemplatePlaceholder) :
  TemplatePlaceholder_new (VStr k1) = Ok t1 ->
  TemplatePlaceholder_new (VStr k2) = Ok t2 ->
  (py_eq (OTemplate t1) (OTemplate t2) = true <-> k1 = k2)
  /\ (k1 <> k2 -> py_eq (OTemplate t1) (OTemplate t2) = false)
  /\ (k1 = k2 ->
      t1 = t2
      /\ TemplatePlaceholder_str t1 = TemplatePlaceholder_str t2
      /\ TemplatePlaceholder_repr t1 = TemplatePlaceholder_repr t2
      /\ TemplatePlaceholder_type t1 = TemplatePlaceholder_type t2
      /\ forall rt,
          py_hash rt (OTemplate t1) = py_hash rt (OTemplate t2)
          /\ key_match rt (OTemplate t1) (OTemplate t2) = true).
Proof.
  rewrite !TemplatePlaceholder_new_str. intros H1 H2.
  injection H1 as <-. injection H2 as <-.
  assert (Heq : py_eq (OTemplate (TemplatePlaceholder_of k1))
                      (OTemplate (TemplatePlaceholder_of k2)) = true <-> k1 = k2).
  { rewrite py_eq_templates. split.
    - apply TemplatePlaceholder_of_inj.
    - now intros ->. }
  split; [exact Heq |]. split.
  - intros Hne.
    destruct (py_eq (OTemplate (TemplatePlaceholder_of k1))
                    (OTemplate (TemplatePlaceholder_of k2))); [| reflexivity].
    exfalso. apply Hne. now apply Heq.
  - intros ->. repeat split. now apply key_match_templates.
Qed.

Lemma TemplatePlaceholder_equal_by_kind_witness :
  TemplatePlaceholder_new (VStr "unique") = Ok UniquePlaceholder
  /\ TemplatePlaceholder_new (VStr "unique") = Ok (TemplatePlaceholder_of "unique")
  /\ py_eq (OTemplate UniquePlaceholder) (OTemplate (TemplatePlaceholder_of "unique"))
     = true.
Proof.
  split; [reflexivity |]. split; [reflexivity |].
  apply (TemplatePlaceholder_equal_by_kind "unique" "unique"
           UniquePlaceholder (TemplatePlaceholder_of "unique")
           eq_refl eq_refl).
  reflexivity.
Defined.

(** ** Tree builders *)

Lemma models_tree_from_s3_top_paths_empty
  (s3_top_paths : list string) (predictor_type : PredictorType) :
  models_tree_from_s3_top_paths s3_top_paths predictor_type = Dir [].
Proof. reflexivity. Qed.

Lemma models_tree_from_s3_path_empty
  (s3_path : list string) (predictor_type : PredictorType) :
  models_tree_from_s3_path s3_path predictor_type = Dir [].
Proof. reflexivity. Qed.

(** The loop of [models_tree_from_s3_top_paths] does run: after it, the
    local name holds the directory of the last path.  The value is dropped. *)
Lemma model_name_after_loop (paths : list string) (last : string) :
  fold_left (fun (_ : option string) p => Some (os_path_dirname p))
            (paths ++ [last]) None
  = Some (os_path_dirname last).
Proof. now rewrite fold_left_app. Qed.

(** C7, as stated, fails: for the listing ["a/b/c.txt"] neither builder
    returns a tree with the key ["a"]; the listed path is not mirrored. *)
Lemma builders_do_not_mirror :
  spec_segments "a/b/c.txt" = ["a"; "b"; "c.txt"]
  /\ spec_mirrors ["a/b/c.txt"]
       (models_tree_from_s3_top_paths ["a/b/c.txt"] PythonPredictorType) = false
  /\ spec_mirrors ["a/b/c.txt"]
       (models_tree_from_s3_path ["a/b/c.txt"] PythonPredictorType) = false
  /\ spec_mirrors ["a/b/c.txt"]
       (Dir [("a", Dir [("b", Dir [("c.txt", Leaf)])])]) = true.
Proof. repeat split. Qed.

(** C7, amended: for every listing and every predictor type, both builders
    return the empty tree; so an empty listing yields an empty tree, which
    mirrors it, and no segment of a non-empty listing becomes a key. *)
Theorem builders_return_empty_tree
  (paths : list string) (predictor_type : PredictorType) :
  models_tree_from_s3_top_paths paths predictor_type = Dir []
  /\ models_tree_from_s3_path paths predictor_type = Dir []
  /\ spec_mirrors [] (models_tree_from_s3_top_paths [] predictor_type) = true
  /\ spec_mirrors [] (models_tree_from_s3_path [] predictor_type) = true
  /\ (spec_mirrors paths (models_tree_from_s3_top_paths paths predictor_type) = true
      <-> paths = [])
  /\ (spec_mirrors paths (models_tree_from_s3_path paths predictor_type) = true
      <-> paths = []).
Proof.
  rewrite models_tree_from_s3_top_paths_empty, models_tree_from_s3_path_empty.
  assert (H : spec_mirrors paths (Dir []) = true <-> paths = []).
  { destruct paths as [| p paths]; simpl; [tauto |].
    split; [| discriminate].
    destruct (spec_segments p); discriminate. }
  repeat split; try reflexivity; apply H.
Qed.

Lemma store_new_dict_get (st : Store) (r : nat) :
  store_get (snd (store_new_dict st)) r
  = if Nat.eqb (store_next st) r then Some [] else store_get st r.
Proof. reflexivity. Qed.

Lemma store_new_dict_tree (st : Store) (fuel : nat) :
  store_tree (S fuel) (snd (store_new_dict st)) (fst (store_new_dict st))
  = Some (Dir []).
Proof.
  cbn [store_tree]. rewrite store_new_dict_get. cbn [fst store_new_dict].
  now rewrite Nat.eqb_refl.
Qed.

(** The tree that a call leaves in the store is the value of the builder. *)
Lemma builder_calls_return_trees
  (paths : list string) (predictor_type : PredictorType) (st : Store) (fuel : nat) :
  store_tree (S fuel)
    (snd (models_tree_from_s3_top_paths_call paths predictor_type st))
    (fst (models_tree_from_s3_top_paths_call paths predictor_type st))
  = Some (models_tree_from_s3_top_paths paths predictor_type)
  /\ store_tree (S fuel)
       (snd (models_tree_from_s3_path_call paths predictor_type st))
       (fst (models_tree_from_s3_path_call paths predictor_type st))
     = Some (models_tree_from_s3_path paths predictor_type).
Proof. split; apply store_new_dict_tree. Qed.

(** C8: building a tree twice from the same listing gives equal trees, for
    either builder and every listing.  The two calls run in different
    stores: between them the program may have created objects and changed
    any of them, the first result included.  Each call returns a new object
    holding the empty tree, whatever the store holds, so the two results are
    equal as returned, they are different objects, and the second call
    changes no object that existed before it. *)
Theorem builders_repeatable_calls
  (build : list string -> PredictorType -> Store -> nat * Store)
  (paths : list string) (predictor_type : PredictorType)
  (st0 st1 st1' st2 : Store) (r1 r2 : nat) :
  build = models_tree_from_s3_top_paths_call
  \/ build = models_tree_from_s3_path_call ->
  build paths predictor_type st0 = (r1, st1) ->
  (store_next st1 <= store_next st1')%nat ->
  build paths predictor_type st1' = (r2, st2) ->
  (forall fuel,
     exists t1 t2,
       store_tree (S fuel) st1 r1 = Some t1
       /\ store_tree (S fuel) st2 r2 = Some t2
       /\ PathTree_eqb t1 t2 = true)
  /\ r1 <> r2
  /\ (forall r, r <> r2 -> store_get st2 r = store_get st1' r).
Proof.
  intros Hb H1 Hnext H2.
  assert (E1 : (r1, st1) = store_new_dict st0)
    by (destruct Hb; subst build; now rewrite <- H1).
  assert (E2 : (r2, st2) = store_new_dict st1')
    by (destruct Hb; subst build; now rewrite <- H2).
  pose proof (f_equal fst E1) as R1. pose proof (f_equal snd E1) as S1.
  pose proof (f_equal fst E2) as R2. pose proof (f_equal snd E2) as S2.
  cbn [fst snd] in R1, S1, R2, S2.
  split; [| split].
  - intros fuel. exists (Dir []), (Dir []).
    rewrite S1, R1, S2, R2, !store_new_dict_tree. repeat split.
  - subst st1 r1 r2. simpl in Hnext |- *. lia.
  - intros r Hr. rewrite S2, store_new_dict_get.
    destruct (Nat.eqb_spec (store_next st1') r) as [E | _]; [| reflexivity].
    exfalso. apply Hr. now rewrite R2.
Qed.

Lemma builders_repeatable_calls_witness :
  let paths := ["a/b/c.txt"; "a/b/d.txt"] in
  let call1 := models_tree_from_s3_top_paths_call paths PythonPredictorType empty_store in
  let changed := store_setitem (snd call1) (fst call1) "a" TLeaf in
  let call2 := models_tree_from_s3_top_paths_call paths PythonPredictorType changed in
  store_tree 1 changed (fst call1) = Some (Dir [("a", Leaf)])
  /\ (store_next (snd call1) <= store_next changed)%nat
  /\ (exists t1 t2,
        store_tree 1 (snd call1) (fst call1) = Some t1
        /\ store_tree 1 (snd call2) (fst call2) = Some t2
        /\ PathTree_eqb t1 t2 = true)
  /\ fst call1 <> fst call2
  /\ store_tree 1 (snd call2) (fst call1) = Some (Dir [("a", Leaf)]).
Proof.
  cbv zeta.
  pose proof (builders_repeatable_calls
                models_tree_from_s3_top_paths_call
                ["a/b/c.txt"; "a/b/d.txt"] PythonPredictorType
                empty_store
                (snd (models_tree_from_s3_top_paths_call
                        ["a/b/c.txt"; "a/b/d.txt"] PythonPredictorType empty_store))
                (store_setitem
                   (snd (models_tree_from_s3_top_paths_call
                           ["a/b/c.txt"; "a/b/d.txt"] PythonPredictorType empty_store))
                   (fst (models_tree_from_s3_top_paths_call
                           ["a/b/c.txt"; "a/b/d.txt"] PythonPredictorType empty_store))
                   "a" TLeaf)
                (snd (models_tree_from_s3_top_paths_call
                        ["a/b/c.txt"; "a/b/d.txt"] PythonPredictorType
                        (store_setitem
                           (snd (models_tree_from_s3_top_paths_call
                                   ["a/b/c.txt"; "a/b/d.txt"] PythonPredictorType
                                   empty_store))
                           (fst (models_tree_from_s3_top_paths_call
                                   ["a/b/c.txt"; "a/b/d.txt"] PythonPredictorType
                                   empty_store))
                           "a" TLeaf)))
                0%nat 1%nat
                (or_introl eq_refl) eq_refl (le_n 1) eq_refl)
    as (Htrees & Hdistinct & _).
  split; [reflexivity |]. split; [apply le_n |].
  split; [exact (Htrees 0%nat) |]. split; [exact Hdistinct | reflexivity].
Defined.

(** ** Machine words and tuple hashes *)

Lemma M64_val : M64 = 18446744073709551616.
Proof. reflexivity. Qed.

Lemma u64_range (x : Z) : 0 <= u64 x < M64.
Proof. unfold u64. apply Z.mod_pos_bound. reflexivity. Qed.

Lemma u64_small (x : Z) : 0 <= x < M64 -> u64 x = x.
Proof. unfold u64. apply Z.mod_small. Qed.

Lemma u64_eq_divide (a b : Z) : u64 a = u64 b -> (M64 | a - b).
Proof.
  unfold u64. intros H. apply Z.mod_divide; [rewrite M64_val; lia |].
  rewrite Zminus_mod, H, Z.sub_diag. reflexivity.
Qed.

Lemma divide_small (a b : Z) :
  0 <= a < M64 -> 0 <= b < M64 -> (M64 | a - b) -> a = b.
Proof.
  intros Ha Hb [k Hk]. rewrite M64_val in *. 
  assert (k = 0) by nia. subst k. lia.
Qed.

Lemma add_inj_mod (c a b : Z) :
  0 <= a < M64 -> 0 <= b < M64 -> u64 (a + c) = u64 (b + c) -> a = b.
Proof.
  intros Ha Hb H. apply u64_eq_divide in H.
  apply divide_small; try assumption.
  replace (a - b) with (a + c - (b + c)) by ring. exact H.
Qed.

Lemma mul_inj_mod (p a b : Z) :
  Z.gcd M64 p = 1 ->
  0 <= a < M64 -> 0 <= b < M64 -> u64 (a * p) = u64 (b * p) -> a = b.
Proof.
  intros Hp Ha Hb H. apply u64_eq_divide in H.
  apply divide_small; try assumption.
  apply (Z.gauss M64 p (a - b)); [| exact Hp].
  replace (p * (a - b)) with (a * p - b * p) by ring. exact H.
Qed.

Lemma s64_inj (a b : Z) :
  0 <= a < M64 -> 0 <= b < M64 -> s64 a = s64 b -> a = b.
Proof.
  intros Ha Hb. unfold s64. rewrite !u64_small by assumption.
  rewrite M64_val in *.
  change (2 ^ 63) with 9223372036854775808.
  destruct (Z.ltb_spec a 9223372036854775808), (Z.ltb_spec b 9223372036854775808); lia.
Qed.

Lemma testbit_above (x n : Z) : 0 <= x < M64 -> 64 <= n -> Z.testbit x n = false.
Proof.
  intros Hx Hn. rewrite <- (Z.mod_small x (2 ^ 64)) by exact Hx.
  apply Z.mod_pow2_bits_high. lia.
Qed.

Lemma xxrotate_bit (x n : Z) :
  0 <= x < M64 -> 0 <= n < 64 ->
  Z.testbit (xxrotate x) n
  = if n <? 31 then Z.testbit x (n + 33) else Z.testbit x (n - 31).
Proof.
  intros Hx Hn. unfold xxrotate, u64, M64.
  rewrite Z.mod_pow2_bits_low by lia.
  rewrite Z.lor_spec, Z.shiftl_spec, Z.shiftr_spec by lia.
  destruct (Z.ltb_spec n 31).
  - rewrite Z.testbit_neg_r by lia. reflexivity.
  - rewrite (testbit_above x (n + 33)) by (assumption || lia).
    apply orb_false_r.
Qed.

Lemma xxrotate_inj (x y : Z) :
  0 <= x < M64 -> 0 <= y < M64 -> xxrotate x = xxrotate y -> x = y.
Proof.
  intros Hx Hy H. apply Z.bits_inj'. intros n Hn.
  destruct (Z.lt_ge_cases n 64) as [Hlt | Hge].
  - destruct (Z.lt_ge_cases n 33) as [Hlo | Hhi].
    + assert (Hi : 0 <= n + 31 < 64) by lia.
      pose proof (xxrotate_bit x (n + 31) Hx Hi) as Bx.
      pose proof (xxrotate_bit y (n + 31) Hy Hi) as By.
      rewrite H in Bx. rewrite Bx in By.
      destruct (Z.ltb_spec (n + 31) 31); [lia |].
      replace (n + 31 - 31) with n in By by ring. exact By.
    + assert (Hi : 0 <= n - 33 < 64) by lia.
      pose proof (xxrotate_bit x (n - 33) Hx Hi) as Bx.
      pose proof (xxrotate_bit y (n - 33) Hy Hi) as By.
      rewrite H in Bx. rewrite Bx in By.
      destruct (Z.ltb_spec (n - 33) 31); [| lia].
      replace (n - 33 + 33) with n in By by ring. exact By.
  - now rewrite !testbit_above.
Qed.

Lemma lxor_range (a b : Z) :
  0 <= a < M64 -> 0 <= b < M64 -> 0 <= Z.lxor a b < M64.
Proof.
  intros Ha Hb. split.
  - apply Z.lxor_nonneg. tauto.
  - assert (H0 : 0 <= Z.lxor a b) by (apply Z.lxor_nonneg; tauto).
    destruct (Z.eq_dec (Z.lxor a b) 0) as [E | E]; [rewrite E; reflexivity |].
    unfold M64. apply Z.log2_lt_pow2; [lia |].
    eapply Z.le_lt_trans; [apply Z.log2_lxor; lia |].
    apply Z.max_lub_lt.
    + destruct (Z.eq_dec a 0) as [-> | Na]; [reflexivity |].
      apply Z.log2_lt_pow2; [lia | apply Ha].
    + destruct (Z.eq_dec b 0) as [-> | Nb]; [reflexivity |].
      apply Z.log2_lt_pow2; [lia | apply Hb].
Qed.

Lemma lxor_inj (x a b : Z) : Z.lxor x a = Z.lxor x b -> a = b.
Proof.
  intros H. apply (f_equal (Z.lxor x)) in H.
  now rewrite <- !Z.lxor_assoc, Z.lxor_nilpotent, !Z.lxor_0_l in H.
Qed.

Lemma xx_round_inj (acc l1 l2 : Z) :
  0 <= l1 < M64 -> 0 <= l2 < M64 ->
  xx_round acc l1 = xx_round acc l2 -> l1 = l2.
Proof.
  intros H1 H2 H. unfold xx_round in H.
  apply mul_inj_mod in H;
    [| vm_compute; reflexivity | apply u64_range | apply u64_range].
  apply xxrotate_inj in H; [| apply u64_range | apply u64_range].
  rewrite (u64_small l1), (u64_small l2) in H by assumption.
  apply u64_eq_divide in H.
  apply divide_small; try assumption.
  apply (Z.gauss M64 XXPRIME_2 (l1 - l2)); [| vm_compute; reflexivity].
  replace (XXPRIME_2 * (l1 - l2))
    with (acc + l1 * XXPRIME_2 - (acc + l2 * XXPRIME_2)) by ring.
  exact H.
Qed.

Lemma legacy_round_inj (x mult l1 l2 : Z) :
  Z.gcd M64 mult = 1 ->
  0 <= x < M64 -> 0 <= l1 < M64 -> 0 <= l2 < M64 ->
  u64 (Z.lxor x (u64 l1) * mult) = u64 (Z.lxor x (u64 l2) * mult) -> l1 = l2.
Proof.
  intros Hm Hx H1 H2 H.
  rewrite (u64_small l1), (u64_small l2) in H by assumption.
  apply mul_inj_mod in H; [| exact Hm | now apply lxor_range ..].
  now apply lxor_inj in H.
Qed.

Section ThreeLanes.
Variable pre : Z -> Z.
Variable d : Z.
Hypothesis pre_range : forall l, 0 <= pre l < M64.
Hypothesis pre_inj : forall l1 l2,
  0 <= l1 < M64 -> 0 <= l2 < M64 -> pre l1 = pre l2 -> l1 = l2.

Lemma three_lanes :
  exists l1 l2,
    In l1 [0; 1; 2] /\ In l2 [0; 1; 2]
    /\ replace_reserved d (pre l1) <> replace_reserved d (pre l2).
Proof.
  assert (R : forall l, In l [0; 1; 2] -> 0 <= l < M64).
  { intros l [<- | [<- | [<- | []]]]; rewrite M64_val; lia. }
  assert (N : forall l1 l2, In l1 [0; 1; 2] -> In l2 [0; 1; 2] -> l1 <> l2 ->
              pre l1 <> M64 - 1 -> pre l2 <> M64 - 1 ->
              replace_reserved d (pre l1) <> replace_reserved d (pre l2)).
  { intros l1 l2 I1 I2 Hne E1 E2. unfold replace_reserved.
    apply Z.eqb_neq in E1, E2. rewrite E1, E2. intros H.
    apply s64_inj in H; [| apply pre_range ..].
    apply pre_inj in H; [contradiction | now apply R ..]. }
  assert (D : forall l1 l2, In l1 [0; 1; 2] -> In l2 [0; 1; 2] -> l1 <> l2 ->
              pre l1 = M64 - 1 -> pre l2 <> M64 - 1).
  { intros l1 l2 I1 I2 Hne E1 E2. apply Hne.
    apply pre_inj; [now apply R .. | congruence]. }
  destruct (Z.eq_dec (pre 0) (M64 - 1)) as [E0 | E0].
  - exists 1, 2. repeat split; simpl; auto.
    apply N; simpl; auto; try lia; apply (D 0); simpl; auto; lia.
  - destruct (Z.eq_dec (pre 1) (M64 - 1)) as [E1 | E1].
    + exists 0, 2. repeat split; simpl; auto.
      apply N; simpl; auto; try lia. apply (D 1); simpl; auto; lia.
    + exists 0, 1. repeat split; simpl; auto.
      apply N; simpl; auto; lia.
Qed.
End ThreeLanes.


Lemma generic_hash_xx (rt : Runtime) (v : PyVal) :
  tuple_alg rt = TupleHashXX ->
  GenericPlaceholder_hash rt (GenericPlaceholder_of v)
  = replace_reserved 1546275796
      (u64 (xx_round (xx_round XXPRIME_5 (val_hash rt (VStr "<generic>")))
                     (val_hash rt v)
            + Z.lxor 2 (Z.lxor XXPRIME_5 3527539))).
Proof.
  intros Halg. unfold GenericPlaceholder_hash, tuple_hash. rewrite Halg.
  unfold xx_tuple_hash, xx_finish, replace_reserved.
  cbn [fold_left List.length generic_value generic_placeholder GenericPlaceholder_of].
  change (Z.of_nat 2) with 2.
  reflexivity.
Qed.

Lemma generic_hash_legacy (rt : Runtime) (v : PyVal) :
  tuple_alg rt = TupleHashLegacy ->
  GenericPlaceholder_hash rt (GenericPlaceholder_of v)
  = replace_reserved (-2)
      (u64 (u64 (Z.lxor
                   (u64 (Z.lxor 3430008 (u64 (val_hash rt (VStr "<generic>")))
                         * 1000003))
                   (u64 (val_hash rt v)) * 1082525)
            + 97531)).
Proof.
  intros Halg. unfold GenericPlaceholder_hash, tuple_hash. rewrite Halg.
  unfold legacy_tuple_hash, legacy_finish, replace_reserved.
  cbn [fold_left List.length generic_value generic_placeholder GenericPlaceholder_of].
  change (Z.of_nat 2) with 2.
  unfold legacy_round.
  change (u64 (1000003 + (82520 + (2 - 1) + (2 - 1)))) with 1082525.
  reflexivity.
Qed.

Lemma int_hash_small (l : Z) : In l [0; 1; 2] -> int_hash l = l.
Proof. intros [<- | [<- | [<- | []]]]; reflexivity. Qed.

(** Among the generic placeholders carrying 0, 1 and 2, two have different
    hashes, whatever the hash of strings is. *)
Lemma generic_hashes_differ (rt : Runtime) :
  exists l1 l2,
    GenericPlaceholder_hash rt (GenericPlaceholder_of (VInt l1))
    <> GenericPlaceholder_hash rt (GenericPlaceholder_of (VInt l2)).
Proof.
  destruct (tuple_alg rt) eqn:Halg.
  - destruct (three_lanes
                (fun l => u64 (u64 (Z.lxor
                     (u64 (Z.lxor 3430008 (u64 (val_hash rt (VStr "<generic>")))
                           * 1000003))
                     (u64 l) * 1082525) + 97531))
                (-2))
      as (l1 & l2 & I1 & I2 & Hne).
    + intros l. apply u64_range.
    + intros l1 l2 R1 R2 H.
      apply add_inj_mod in H; [| apply u64_range ..].
      apply legacy_round_inj in H;
        [exact H | reflexivity | apply u64_range | exact R1 | exact R2].
    + exists l1, l2. rewrite !generic_hash_legacy by exact Halg.
      simpl val_hash. now rewrite !int_hash_small.
  - destruct (three_lanes
                (fun l => u64 (xx_round
                     (xx_round XXPRIME_5 (val_hash rt (VStr "<generic>"))) l
                     + Z.lxor 2 (Z.lxor XXPRIME_5 3527539)))
                1546275796)
      as (l1 & l2 & I1 & I2 & Hne).
    + intros l. apply u64_range.
    + intros l1 l2 R1 R2 H.
      apply add_inj_mod in H; [| unfold xx_round; apply u64_range ..].
      now apply xx_round_inj in H.
    + exists l1, l2. rewrite !generic_hash_xx by exact Halg.
      simpl val_hash. now rewrite !int_hash_small.
Qed.

Lemma py_eq_generics (v1 v2 : PyVal) :
  py_eq (OGeneric (GenericPlaceholder_of v1)) (OGeneric (GenericPlaceholder_of v2))
  = true.
Proof. reflexivity. Qed.

(** Between two generic placeholders, a dict decides by the hashes alone. *)
Lemma key_match_generics (rt : Runtime) (v1 v2 : PyVal) :
  key_match rt (OGeneric (GenericPlaceholder_of v1))
               (OGeneric (GenericPlaceholder_of v2))
  = (GenericPlaceholder_hash rt (GenericPlaceholder_of v1)
     =? GenericPlaceholder_hash rt (GenericPlaceholder_of v2)).
Proof.
  unfold key_match. rewrite py_eq_generics. simpl py_is. simpl py_hash.
  now rewrite orb_false_l, andb_true_r.
Qed.

(** C10: there are generic placeholders [a] and [b] with [a == b] and
    [hash(a) != hash(b)]: the hash takes the carried value in, the equality
    does not.  A dict keyed by both therefore keeps the two entries apart and
    finds each by its own key. *)
Theorem equal_generics_unequal_hashes (rt : Runtime) :
  exists (va vb : PyVal) (a b : GenericPlaceholder),
    GenericPlaceholder_new va = Ok a
    /\ GenericPlaceholder_new vb = Ok b
    /\ GenericPlaceholder_eq a (OGeneric b) = true
    /\ py_eq (OGeneric a) (OGeneric b) = true
    /\ GenericPlaceholder_hash rt a <> GenericPlaceholder_hash rt b
    /\ forall x y : Pattern,
        let d := dict_display (key_match rt) [(OGeneric a, x); (OGeneric b, y)] in
        d = [(OGeneric a, x); (OGeneric b, y)]
        /\ dict_getitem (key_match rt) d (OGeneric a) = Ok x
        /\ dict_getitem (key_match rt) d (OGeneric b) = Ok y.
Proof.
  destruct (generic_hashes_differ rt) as (l1 & l2 & Hne).
  exists (VInt l1), (VInt l2),
         (GenericPlaceholder_of (VInt l1)), (GenericPlaceholder_of (VInt l2)).
  repeat (split; [reflexivity |]). split; [exact Hne |].
  intros x y.
  assert (K12 : key_match rt (OGeneric (GenericPlaceholder_of (VInt l1)))
                             (OGeneric (GenericPlaceholder_of (VInt l2))) = false).
  { rewrite key_match_generics. now apply Z.eqb_neq. }
  assert (K : forall v, key_match rt (OGeneric (GenericPlaceholder_of v))
                                     (OGeneric (GenericPlaceholder_of v)) = true).
  { intros v. rewrite key_match_generics. apply Z.eqb_refl. }
  cbn [dict_display fold_left dict_setitem fst snd]. rewrite K12.
  cbn [dict_getitem]. rewrite !K, K12. repeat split.
Qed.

(* ================================================================== *)
(** * Further properties of the module *)
(* ================================================================== *)

(** ** Keys of different classes *)

Lemma key_match_false (rt : Runtime) (a b : PyObj) :
  py_is a b = false -> py_eq a b = false -> key_match rt a b = false.
Proof.
  intros Hi He. unfold key_match. rewrite Hi, He. apply andb_false_r.
Qed.

Lemma Generic_unfold (s : string) :
  Generic s = OGeneric (GenericPlaceholder_of (VStr s)).
Proof. reflexivity. Qed.

(** Rewrites the key tests of a display that are settled by the classes of
    the two keys, and evaluates the display as far as that allows. *)
Ltac settle_keys :=
  repeat (progress
            (unfold set_add;
             cbn [dict_display set_display fold_left dict_setitem dict_getitem
                  existsb fst snd app orb PlaceholderGroup];
             repeat match goal with
                    | |- context [key_match ?rt ?a ?b] =>
                        rewrite (key_match_false rt a b) by reflexivity
                    end)).

(** X2: the rule that equal objects have equal hashes, which a generic
    placeholder breaks, holds for every other object of the module: template
    placeholders, groups and scalar values. *)
Theorem equal_implies_equal_hash_unless_generic (rt : Runtime) (a b : PyObj) :
  isinstance_GenericPlaceholder a = false ->
  py_eq a b = true ->
  py_hash rt a = py_hash rt b.
Proof.
  intros Ha Heq.
  destruct a as [[s | z |] | t | g | i ps]; try discriminate Ha;
    destruct b as [[s' | z' |] | t' | g' | j ps'];
    unfold py_eq in Heq; simpl in Heq; try discriminate Heq.
  - apply String.eqb_eq in Heq. now subst.
  - apply Z.eqb_eq in Heq. now subst.
  - reflexivity.
  - apply String.eqb_eq, TemplatePlaceholder_eta in Heq. now subst.
  - destruct (Nat.eqb_spec i j) as [-> | N]; [reflexivity |].
    destruct (Nat.eqb_spec j i) as [-> | N']; [now destruct N | discriminate Heq].
Qed.

Lemma equal_implies_equal_hash_unless_generic_witness :
  isinstance_GenericPlaceholder (OTemplate UniquePlaceholder) = false
  /\ py_eq (OTemplate UniquePlaceholder)
           (OTemplate (TemplatePlaceholder_of "unique")) = true
  /\ py_hash sample_runtime (OTemplate UniquePlaceholder)
     = py_hash sample_runtime (OTemplate (TemplatePlaceholder_of "unique")).
Proof.
  split; [reflexivity |]. split; [reflexivity |].
  apply (equal_implies_equal_hash_unless_generic sample_runtime
           (OTemplate UniquePlaceholder)
           (OTemplate (TemplatePlaceholder_of "unique"))); reflexivity.
Defined.

(** X3: a generic placeholder is never taken for a template placeholder or a
    group, as left or as right operand and as stored or as looked-up key,
    not even [TemplatePlaceholder("generic")], whose text and type are those
    of a generic placeholder. *)
Theorem generic_never_matches_other_classes
  (rt : Runtime) (value : PyVal) (kind : string) (oid : nat) (parts : list PyObj) :
  let g := OGeneric (GenericPlaceholder_of value) in
  let t := OTemplate (TemplatePlaceholder_of kind) in
  let grp := PlaceholderGroup oid parts in
  py_eq g t = false /\ py_eq t g = false
  /\ py_eq g grp = false /\ py_eq grp g = false
  /\ key_match rt g t = false /\ key_match rt t g = false
  /\ key_match rt g grp = false /\ key_match rt grp g = false
  /\ template_placeholder (TemplatePlaceholder_of "generic")
     = generic_placeholder (GenericPlaceholder_of value)
  /\ TemplatePlaceholder_type (TemplatePlaceholder_of "generic")
     = GenericPlaceholder_type (GenericPlaceholder_of value).
Proof.
  cbv zeta. repeat split; try reflexivity; now apply key_match_false.
Qed.

(** ** The registry entries *)

Ltac open_registry :=
  unfold model_pattern, dirs_model_pattern, model_template;
  cbn [dict_display fold_left dict_setitem dict_getitem fst snd
       PredictorType_eqb bind];
  settle_keys.

Lemma registry_python (rt : Runtime) :
  dict_getitem PredictorType_eqb (model_template rt) PythonPredictorType
  = Ok (PDict [ (OTemplate IntegerPlaceholder, PObj (OTemplate AnyPlaceholder)) ]).
Proof. reflexivity. Qed.

Lemma registry_onnx (rt : Runtime) :
  dict_getitem PredictorType_eqb (model_template rt) ONNXPredictorType
  = Ok (PDict onnx_entries).
Proof. open_registry. reflexivity. Qed.

Lemma registry_tensorflow (rt : Runtime) :
  dict_getitem PredictorType_eqb (model_template rt) TensorFlowPredictorType
  = Ok (PDict
          [ (OTemplate IntegerPlaceholder,
             PDict (if GenericPlaceholder_hash rt (GenericPlaceholder_of (VStr "saved_model.pb"))
                       =? GenericPlaceholder_hash rt (GenericPlaceholder_of (VStr "variables"))
                    then tensorflow_version_entries_merged
                    else tensorflow_version_entries)) ]).
Proof.
  open_registry. rewrite !Generic_unfold, key_match_generics.
  destruct (_ =? _); settle_keys; reflexivity.
Qed.

(** X7: for every runtime, the ONNX entry of the registry has exactly two keys:
    the integer placeholder, mapped to the one-element set holding the
    (single, ".onnx") group, and the (exclusive, single, ".onnx") group,
    mapped to [None]. *)
Theorem model_pattern_onnx (rt : Runtime) :
  model_pattern rt ONNXPredictorType = Ok (PDict onnx_entries).
Proof. apply registry_onnx. Qed.

(** X5: the TensorFlow entry maps the integer placeholder to a dict whose
    display names three keys.  The two literal keys are equal to each other,
    so they stay apart only through their hashes: when the hashes differ the
    dict has the three entries, and when they coincide the second literal
    key overwrites the value of the first and the dict has two. *)
Theorem model_pattern_tensorflow (rt : Runtime) :
  model_pattern rt TensorFlowPredictorType
  = Ok (PDict
          [ (OTemplate IntegerPlaceholder,
             PDict (if GenericPlaceholder_hash rt (GenericPlaceholder_of (VStr "saved_model.pb"))
                       =? GenericPlaceholder_hash rt (GenericPlaceholder_of (VStr "variables"))
                    then tensorflow_version_entries_merged
                    else tensorflow_version_entries)) ]).
Proof. apply registry_tensorflow. Qed.

(** Both shapes of the TensorFlow entry occur: three keys under the sample
    runtime, two under a runtime whose string hashes collide. *)
Lemma model_pattern_tensorflow_shapes :
  model_pattern sample_runtime TensorFlowPredictorType
  = Ok (PDict [ (OTemplate IntegerPlaceholder, PDict tensorflow_version_entries) ])
  /\ model_pattern colliding_runtime TensorFlowPredictorType
     = Ok (PDict [ (OTemplate IntegerPlaceholder,
                    PDict tensorflow_version_entries_merged) ]).
Proof. split; vm_compute; reflexivity. Qed.

(** ** Lookups in pattern dicts *)

Lemma key_match_refl_template (rt : Runtime) (t : TemplatePlaceholder) :
  key_match rt (OTemplate t) (OTemplate t) = true.
Proof. now apply key_match_templates. Qed.



(** X4: a key that is a generic placeholder is found through the hash alone: in
    a dict with the single key [GenericPlaceholder(w)], looking up
    [GenericPlaceholder(v)] returns the stored value when the two hashes
    coincide, whatever [v] and [w] are, and raises [KeyError] when they
    differ; with [v] equal to [w] it always succeeds. *)
Theorem generic_key_lookup_by_hash (rt : Runtime) (v w : PyVal) (x : Pattern) :
  let d := dict_display (key_match rt) [ (OGeneric (GenericPlaceholder_of w), x) ] in
  dict_getitem (key_match rt) d (OGeneric (GenericPlaceholder_of v))
  = (if GenericPlaceholder_hash rt (GenericPlaceholder_of w)
        =? GenericPlaceholder_hash rt (GenericPlaceholder_of v)
     then Ok x else Raise KeyError)
  /\ dict_getitem (key_match rt) d (OGeneric (GenericPlaceholder_of w)) = Ok x.
Proof.
  cbv zeta. cbn [dict_display fold_left dict_setitem dict_getitem fst snd].
  rewrite !key_match_generics, Z.eqb_refl. split; reflexivity.
Qed.



(** X6: in the TensorFlow entry, looking up the literal key "variables" in the
    version dict returns the variables set under every runtime; looking up
    "saved_model.pb" returns [None] when the hashes of the two literal keys
    differ and the variables set when they coincide. *)
Theorem tensorflow_lookup (rt : Runtime) :
  exists d,
    model_pattern rt TensorFlowPredictorType
    = Ok (PDict [ (OTemplate IntegerPlaceholder, PDict d) ])
    /\ dict_getitem (key_match rt) d (OTemplate AnyPlaceholder) = Ok PNone
    /\ dict_getitem (key_match rt) d (Generic "variables") = Ok variables_set
    /\ dict_getitem (key_match rt) d (Generic "saved_model.pb")
       = Ok (if GenericPlaceholder_hash rt (GenericPlaceholder_of (VStr "saved_model.pb"))
                =? GenericPlaceholder_hash rt (GenericPlaceholder_of (VStr "variables"))
             then variables_set else PNone).
Proof.
  eexists. split; [apply registry_tensorflow |].
  destruct (_ =? _) eqn:E;
    unfold tensorflow_version_entries, tensorflow_version_entries_merged;
    (split; [cbn [dict_getitem]; now rewrite key_match_refl_template |]);
    settle_keys; rewrite !Generic_unfold, !key_match_generics, ?E, ?Z.eqb_refl;
    split; reflexivity.
Qed.



(** ** The [type] property in general *)

Lemma rstrip_starts (chars s : string) :
  starts_with_any chars s = false ->
  starts_with_any chars (rstrip chars s) = false.
Proof.
  destruct s as [| c s]; simpl; [reflexivity |]. intros Hc.
  destruct (rstrip chars s); [rewrite Hc |]; simpl; assumption.
Qed.

Lemma strip_clean (chars s : string) :
  starts_with_any chars (strip chars s) = false
  /\ ends_with_any chars (strip chars s) = false.
Proof.
  unfold strip. split.
  - apply rstrip_starts, lstrip_starts.
  - apply rstrip_ends.
Qed.

Lemma strip_idempotent (chars s : string) :
  strip chars (strip chars s) = strip chars s.
Proof. apply strip_fixed, strip_clean. Qed.

(** X1: for every kind string, the [type] of the placeholder built from it is
    the kind without its leading and trailing angle brackets.  So the type
    has no angle bracket at either end, a placeholder rebuilt from a type has
    that same type, the type is the kind exactly when the kind has no angle
    bracket at either end, and placeholders of different kinds (a kind and
    the same kind with one more bracket in front) can have the same type. *)
Theorem TemplatePlaceholder_type_stripped (kind : string) :
  let ty := TemplatePlaceholder_type (TemplatePlaceholder_of kind) in
  TemplatePlaceholder_new (VStr kind) = Ok (TemplatePlaceholder_of kind)
  /\ ty = strip "<>" kind
  /\ starts_with_any "<>" ty = false
  /\ ends_with_any "<>" ty = false
  /\ TemplatePlaceholder_type (TemplatePlaceholder_of ty) = ty
  /\ (ty = kind <->
      starts_with_any "<>" kind = false /\ ends_with_any "<>" kind = false)
  /\ TemplatePlaceholder_type (TemplatePlaceholder_of (String "<" kind)) = ty
  /\ py_eq (OTemplate (TemplatePlaceholder_of (String "<" kind)))
           (OTemplate (TemplatePlaceholder_of kind)) = false.
Proof.
  cbv zeta. rewrite !TemplatePlaceholder_type_of.
  split; [reflexivity |]. split; [reflexivity |].
  split; [apply strip_clean |]. split; [apply strip_clean |].
  split; [apply strip_idempotent |]. split; [apply strip_fixed |].
  split; [now rewrite strip_cons |].
  destruct (py_eq _ _) eqn:E; [| reflexivity].
  apply py_eq_templates, TemplatePlaceholder_of_inj in E.
  apply (f_equal String.length) in E. simpl in E. lia.
Qed.

(** ** Indexing a group *)

Lemma PlaceholderGroup_getitem_nonneg (parts : list PyObj) (index : Z) :
  0 <= index ->
  PlaceholderGroup_getitem parts index
  = match nth_error parts (Z.to_nat index) with
    | Some p => Ok p
    | None => Raise IndexError
    end.
Proof.
  intros H. unfold PlaceholderGroup_getitem.
  assert (E : (index <? 0) = false) by (apply Z.ltb_ge; lia).
  now rewrite !E.
Qed.

Lemma PlaceholderGroup_getitem_negative (parts : list PyObj) (index : Z) :
  index < 0 ->
  PlaceholderGroup_getitem parts index
  = if index + PlaceholderGroup_len parts <? 0 then Raise IndexError
    else PlaceholderGroup_getitem parts (index + PlaceholderGroup_len parts).
Proof.
  intros H. unfold PlaceholderGroup_getitem at 1. unfold PlaceholderGroup_len.
  assert (E : (index <? 0) = true) by (apply Z.ltb_lt; lia). rewrite E.
  destruct (Z.ltb_spec (index + Z.of_nat (List.length parts)) 0) as [L | L];
    [reflexivity |].
  now rewrite PlaceholderGroup_getitem_nonneg.
Qed.

(** X10: [PlaceholderGroup.__getitem__] with an integer index: an index from
    [-len] up to [len - 1] returns one of the parts, a negative index [i -
    len] returning the same part as [i]; any other index raises
    [IndexError], so every index does on a group without parts. *)
Theorem PlaceholderGroup_getitem_bounds (parts : list PyObj) (index : Z) :
  let n := PlaceholderGroup_len parts in
  (- n <= index < n ->
   exists p, PlaceholderGroup_getitem parts index = Ok p /\ In p parts)
  /\ (0 <= index < n ->
      PlaceholderGroup_getitem parts (index - n)
      = PlaceholderGroup_getitem parts index)
  /\ (index < - n \/ n <= index ->
      PlaceholderGroup_getitem parts index = Raise IndexError)
  /\ (parts = [] -> PlaceholderGroup_getitem parts index = Raise IndexError).
Proof.
  cbv zeta.
  assert (Hlen : PlaceholderGroup_len parts = Z.of_nat (List.length parts))
    by reflexivity.
  assert (In_range : forall i, 0 <= i < PlaceholderGroup_len parts ->
            exists p, PlaceholderGroup_getitem parts i = Ok p /\ In p parts).
  { intros i Hi. rewrite PlaceholderGroup_getitem_nonneg by lia.
    destruct (nth_error parts (Z.to_nat i)) as [p |] eqn:E.
    - exists p. split; [reflexivity |]. eapply nth_error_In; eassumption.
    - apply nth_error_None in E. lia. }
  assert (Out_range : forall i, PlaceholderGroup_len parts <= i ->
            PlaceholderGroup_getitem parts i = Raise IndexError).
  { intros i Hi. rewrite PlaceholderGroup_getitem_nonneg by lia.
    replace (nth_error parts (Z.to_nat i)) with (@None PyObj); [reflexivity |].
    symmetry. apply nth_error_None. lia. }
  assert (Below : forall i, i < - PlaceholderGroup_len parts ->
            PlaceholderGroup_getitem parts i = Raise IndexError).
  { intros i Hi. rewrite PlaceholderGroup_getitem_negative by lia.
    destruct (Z.ltb_spec (i + PlaceholderGroup_len parts) 0); [reflexivity | lia]. }
  split; [| split; [| split]].
  - intros Hi. destruct (Z.lt_ge_cases index 0) as [Neg | Pos].
    + rewrite PlaceholderGroup_getitem_negative by exact Neg.
      destruct (Z.ltb_spec (index + PlaceholderGroup_len parts) 0); [lia |].
      apply In_range. lia.
    + apply In_range. lia.
  - intros Hi. rewrite PlaceholderGroup_getitem_negative by lia.
    replace (index - PlaceholderGroup_len parts + PlaceholderGroup_len parts)
      with index by ring.
    destruct (Z.ltb_spec index 0); [lia | reflexivity].
  - intros [Hi | Hi]; [now apply Below | now apply Out_range].
  - intros ->. destruct (Z.lt_ge_cases index 0) as [Neg | Pos].
    + apply Below. change (PlaceholderGroup_len []) with 0. lia.
    + apply Out_range. change (PlaceholderGroup_len []) with 0. lia.
Qed.

Lemma PlaceholderGroup_getitem_bounds_witness :
  (- 2 <= -1 < 2
   /\ exists p,
       PlaceholderGroup_getitem
         [ Generic "variables.data-00000-of-"; OTemplate AnyPlaceholder ] (-1) = Ok p
       /\ In p [ Generic "variables.data-00000-of-"; OTemplate AnyPlaceholder ])
  /\ (2 < - 2 \/ 2 <= 2)
  /\ PlaceholderGroup_getitem
       [ Generic "variables.data-00000-of-"; OTemplate AnyPlaceholder ] 2
     = Raise IndexError.
Proof.
  pose proof (PlaceholderGroup_getitem_bounds
                [ Generic "variables.data-00000-of-"; OTemplate AnyPlaceholder ] (-1))
    as (Hin & _).
  pose proof (PlaceholderGroup_getitem_bounds
                [ Generic "variables.data-00000-of-"; OTemplate AnyPlaceholder ] 2)
    as (_ & _ & Hout & _).
  unfold PlaceholderGroup_len in Hin, Hout. simpl in Hin, Hout.
  split; [split; [lia | apply Hin; lia] |].
  split; [right; lia | apply Hout; lia].
Defined.

(** ** Telling the entries apart *)

(** X11: the trees of the three registered predictor types are pairwise
    different under every runtime: when [model_pattern] returns the same
    tree for two registered types, the types are the same. *)
Theorem model_pattern_injective (rt : Runtime) (pt1 pt2 : PredictorType) :
  registered rt pt1 = true ->
  registered rt pt2 = true ->
  model_pattern rt pt1 = model_pattern rt pt2 ->
  pt1 = pt2.
Proof.
  intros H1 H2. apply registered_iff in H1, H2.
  destruct H1 as [<- | [<- | [<- | []]]]; destruct H2 as [<- | [<- | [<- | []]]];
    try reflexivity;
    unfold model_pattern;
    rewrite ?registry_python, ?registry_tensorflow, ?registry_onnx;
    unfold onnx_entries; try discriminate;
    destruct (_ =? _); discriminate.
Qed.

Lemma model_pattern_injective_witness :
  registered sample_runtime ONNXPredictorType = true
  /\ model_pattern sample_runtime ONNXPredictorType
     = model_pattern sample_runtime ONNXPredictorType
  /\ ONNXPredictorType = ONNXPredictorType.
Proof.
  split; [reflexivity |]. split; [reflexivity |].
  apply (model_pattern_injective sample_runtime ONNXPredictorType ONNXPredictorType);
    reflexivity.
Defined.
